(** * CleanUpMyDownloadsWin: a shallow embedding and its properties

    The program scans a downloads directory, compares each entity's fresh
    [stat] data with the record kept from the previous run in a CSV file,
    raises an importance score when the entity was accessed again, archives
    or trashes the entities that were not accessed for [TIME_LIMIT_IN_DAYS],
    and rewrites the CSV file.

    How the Python program is modelled:

    - [EntityData] objects are mutable and shared by reference, so they live
      in a heap ([gmap loc pyobj]); the dictionary [Memory.last_metadata] is a
      heap object as well.
    - Everything that touches the outside (clock, file system, CSV file,
      standard output) is a field of [world]; code is written in a state and
      exception monad [M] over [world].  Each call of [datetime.now()] takes
      the next reading of the clock.
    - Timestamps ([st_atime], [st_birthtime], the CSV columns) are Python
      floats holding seconds; the program only compares them and converts them
      to [datetime].  They are modelled by the integer number of microseconds
      they denote, the resolution of [datetime]; NaN and the infinities are
      not represented.  Naive local [datetime] values are modelled by their
      microsecond count under a fixed offset to UTC (no daylight-saving
      transition between the compared instants).
    - The CSV file is modelled after [csv.reader]/[csv.writer]: a list of rows,
      each a list of cells; the quoting layer of the [csv] module is not
      modelled.  [csv.DictReader] is modelled from its library source.
    - Opening the snapshot for reading raises when the file is absent;
      opening it for writing and writing a row always succeed.  A move or a
      send-to-trash is either carried out or refused by the system ([refuses]),
      in which case the call raises [OSError].
    - The Python built-ins and library functions whose result is a string or
      is parsed from one ([str], [float], [int], [str(datetime)], [pathlib])
      are the fields of the class [PyLib]; [RefLib] is an instance used to run
      the model on concrete inputs. *)

From Stdlib Require Import ZArith String Ascii List Lia DecimalString DecimalZ.
From stdpp Require Import gmap strings list fin_maps.

Local Open Scope Z_scope.

(** ** Module-level constants (lines 8 to 11) *)

Definition DOWNLOADS_PATH : string := "D:\Téléchargements".
Definition IMPORTANCE_THRESHOLD : Z := 3.
Definition TIME_LIMIT_IN_DAYS : Z := 30.
Definition ARCHIVE_PATH : string := "D:\Archives".

(** ** Time *)

(** A float timestamp, as the microseconds it denotes. *)
Definition timestamp := Z.
(** A naive [datetime], in microseconds. *)
Definition datetime := Z.

Definition MICROSECONDS_PER_DAY : Z := 86400 * 1000000.

(** [timedelta(days=d)] *)
Definition timedelta_days (d : Z) : Z := d * MICROSECONDS_PER_DAY.

(** [datetime.fromtimestamp(t)] *)
Definition fromtimestamp (t : timestamp) : datetime := t.

(** ** Python values, objects and exceptions *)

Inductive exn : Type :=
| FileNotFoundError
| StopIteration
| KeyError (k : string)
| ValueError
| TypeError
| AttributeError
| OSError.

(** The values that reach [EntityData.__init__]: CSV cells ([str], or [None]
    for a missing cell), [stat] floats, and the literal [0]. *)
Inductive pyval : Type :=
| VNone
| VStr (s : string)
| VFloat (t : timestamp)
| VInt (n : Z).

(** Built-ins and library functions on strings. [None] stands for
    [ValueError]. *)
Class PyLib : Type := {
  float_of_str : string -> option timestamp;   (* float(s) *)
  str_of_float : timestamp -> string;          (* str(x), x a float *)
  int_of_str : string -> option Z;             (* int(s) *)
  str_of_int : Z -> string;                    (* str(n), n an int *)
  str_of_datetime : datetime -> string;        (* str(d), d a datetime *)
  path_str : string -> string;                 (* str(Path(s)) *)
  path_name : string -> string;                (* Path(s).name *)
  path_join : string -> string -> string       (* str(Path(a).joinpath(b)) *)
}.

(** What the program relies on when it reads back what it wrote. *)
Class PyLibRoundTrip (L : PyLib) : Prop := {
  float_of_str_of_float : forall t, float_of_str (str_of_float t) = Some t;
  int_of_str_of_int : forall n, int_of_str (str_of_int n) = Some n
}.

Definition loc := positive.

Record EntityData : Type := mkEntityData {
  path : string;
  birthdate : timestamp;
  last_access : timestamp;
  importance_level : Z
}.

Definition set_importance_level (e : EntityData) (n : Z) : EntityData :=
  {| path := path e; birthdate := birthdate e;
     last_access := last_access e; importance_level := n |}.

(** Keys of [last_metadata] are CSV cells: a string, or [None]. *)
Inductive pyobj : Type :=
| OEntity (e : EntityData)
| ODict (d : gmap (option string) loc).

(** ** The world *)

Record stat_result : Type := mkStat {
  st_birthtime : timestamp;
  st_atime : timestamp
}.

Inductive fs_op : Type :=
| Rename (src dst : string)      (* Path.rename *)
| Send2Trash (src : string).     (* send2trash *)

Record world : Type := mkWorld {
  heap : gmap loc pyobj;
  clock : nat -> datetime;            (* successive readings of datetime.now() *)
  ticks : nat;                        (* readings taken so far *)
  files : gmap string (list (list string));   (* CSV files, as rows of cells *)
  walk : string -> option (list string * list string);  (* next(os.walk(p)) *)
  stat : string -> option stat_result;
  refuses : fs_op -> bool;            (* the operations the OS rejects *)
  moved : list fs_op;                 (* the operations carried out, in order *)
  stdout : list string
}.

Definition with_heap (h : gmap loc pyobj) (w : world) : world :=
  mkWorld h (clock w) (ticks w) (files w) (walk w) (stat w) (refuses w)
          (moved w) (stdout w).
Definition with_ticks (n : nat) (w : world) : world :=
  mkWorld (heap w) (clock w) n (files w) (walk w) (stat w) (refuses w)
          (moved w) (stdout w).
Definition with_files (f : gmap string (list (list string))) (w : world) : world :=
  mkWorld (heap w) (clock w) (ticks w) f (walk w) (stat w) (refuses w)
          (moved w) (stdout w).
Definition with_moved (m : list fs_op) (w : world) : world :=
  mkWorld (heap w) (clock w) (ticks w) (files w) (walk w) (stat w) (refuses w)
          m (stdout w).
Definition with_stdout (o : list string) (w : world) : world :=
  mkWorld (heap w) (clock w) (ticks w) (files w) (walk w) (stat w) (refuses w)
          (moved w) o.

(** ** State and exception monad *)

Inductive result (A : Type) : Type :=
| Ok (a : A)
| Raise (e : exn).
Arguments Ok {A} a.
Arguments Raise {A} e.

Definition M (A : Type) : Type := world -> result A * world.

#[global] Instance M_ret : MRet M := fun A a w => (Ok a, w).
#[global] Instance M_bind : MBind M := fun A B f c w =>
  match c w with
  | (Ok a, w') => f a w'
  | (Raise e, w') => (Raise e, w')
  end.

Definition raise {A : Type} (e : exn) : M A := fun w => (Raise e, w).

Definition lift_result {A : Type} (r : result A) : M A := fun w => (r, w).

(** [for x in l: s = f(s, x)] *)
Fixpoint foldM {S A : Type} (f : S -> A -> M S) (s : S) (l : list A) : M S :=
  match l with
  | [] => mret s
  | x :: l' => s' ← f s x; foldM f s' l'
  end.

(** [for x in l: f(x)] *)
Fixpoint forM_ {A : Type} (f : A -> M unit) (l : list A) : M unit :=
  match l with
  | [] => mret tt
  | x :: l' => f x;; forM_ f l'
  end.

(** *** Primitive effects *)

(** [datetime.now()] *)
Definition now : M datetime := fun w =>
  (Ok (clock w (ticks w)), with_ticks (S (ticks w)) w).

(** Object creation. *)
Definition alloc (o : pyobj) : M loc := fun w =>
  let l := fresh (dom (heap w)) in
  (Ok l, with_heap (<[l := o]> (heap w)) w).

(** Reading the attributes of an [EntityData] object. *)
Definition get_entity (l : loc) : M EntityData := fun w =>
  match heap w !! l with
  | Some (OEntity e) => (Ok e, w)
  | _ => (Raise AttributeError, w)
  end.

Definition get_dict (l : loc) : M (gmap (option string) loc) := fun w =>
  match heap w !! l with
  | Some (ODict d) => (Ok d, w)
  | _ => (Raise AttributeError, w)
  end.

(** [obj.importance_level = n] *)
Definition setattr_importance_level (l : loc) (n : Z) : M unit := fun w =>
  match heap w !! l with
  | Some (OEntity e) =>
      (Ok tt, with_heap (<[l := OEntity (set_importance_level e n)]> (heap w)) w)
  | _ => (Raise AttributeError, w)
  end.

(** [open(p, "r", newline="", encoding="utf-8")] and [csv.reader]. *)
Definition open_read (p : string) : M (list (list string)) := fun w =>
  match files w !! p with
  | Some rows => (Ok rows, w)
  | None => (Raise FileNotFoundError, w)
  end.

(** [open(p, "w", ...)]: the file is created or truncated. *)
Definition open_write (p : string) : M unit := fun w =>
  (Ok tt, with_files (<[p := []]> (files w)) w).

(** [writer.writerow(row)] on the file opened at [p]. *)
Definition writerow (p : string) (row : list string) : M unit := fun w =>
  (Ok tt, with_files (<[p := default [] (files w !! p) ++ [row]]> (files w)) w).

(** [entity.stat()] *)
Definition os_stat (p : string) : M stat_result := fun w =>
  match stat w p with
  | Some s => (Ok s, w)
  | None => (Raise OSError, w)
  end.

(** [next(os.walk(p))], without the directory path. *)
Definition os_walk_next (p : string) : M (list string * list string) := fun w =>
  match walk w p with
  | Some r => (Ok r, w)
  | None => (Raise StopIteration, w)
  end.

Definition fs_apply (op : fs_op) : M unit := fun w =>
  if refuses w op then (Raise OSError, w)
  else (Ok tt, with_moved (moved w ++ [op]) w).

Definition print (s : string) : M unit := fun w =>
  (Ok tt, with_stdout (stdout w ++ [s]) w).

(** ** The program *)

Section Program.
Context {L : PyLib}.

(** *** Built-in conversions *)

(** [str(v)] *)
Definition py_str (v : pyval) : string :=
  match v with
  | VNone => "None"
  | VStr s => s
  | VFloat t => str_of_float t
  | VInt n => str_of_int n
  end.

(** [float(v)] *)
Definition py_float (v : pyval) : result timestamp :=
  match v with
  | VNone => Raise TypeError
  | VStr s => match float_of_str s with Some t => Ok t | None => Raise ValueError end
  | VFloat t => Ok t
  | VInt n => Ok (n * 1000000)
  end.

(** [int(v)]; on a float it truncates towards zero. *)
Definition py_int (v : pyval) : result Z :=
  match v with
  | VNone => Raise TypeError
  | VStr s => match int_of_str s with Some n => Ok n | None => Raise ValueError end
  | VFloat t => Ok (Z.quot t 1000000)
  | VInt n => Ok n
  end.

(** *** class EntityData (lines 15 to 55) *)

(** [EntityData.__init__] (lines 39 to 43): the four attributes are coerced
    in order; the first coercion that fails raises. *)
Definition EntityData_init (path birthdate last_access importance_level : pyval)
  : M loc :=
  let p := py_str path in
  b ← lift_result (py_float birthdate);
  a ← lift_result (py_float last_access);
  i ← lift_result (py_int importance_level);
  alloc (OEntity (mkEntityData p b a i)).

(** The comparison of line 50 at the clock reading [dt]. *)
Definition deprecated_at (dt : datetime) (e : EntityData) : bool :=
  let dt_plus_limit :=
    fromtimestamp (last_access e) + timedelta_days TIME_LIMIT_IN_DAYS in
  dt >? dt_plus_limit.

(** The property [is_deprecated] (lines 45 to 50). *)
Definition is_deprecated (self : loc) : M bool :=
  dt ← now;
  e ← get_entity self;
  mret (deprecated_at dt e).

Definition important (e : EntityData) : bool :=
  importance_level e >=? IMPORTANCE_THRESHOLD.

(** The property [is_important] (lines 52 to 55). *)
Definition is_important (self : loc) : M bool :=
  e ← get_entity self;
  mret (important e).

(** *** class Memory (lines 59 to 169) *)

Record Memory : Type := mkMemory {
  mem_path : string;          (* self.path *)
  last_metadata : loc         (* self.last_metadata, a dict *)
}.

(** One row of [csv.DictReader]: [dict(zip(fieldnames, row))], a later
    duplicate of a field name overriding an earlier one, then [None] for the
    field names the row is too short for.  The cells beyond the field names go
    under the key [None], which no string key reaches. *)
Definition DictReader_row (fieldnames row : list string)
  : gmap string (option string) :=
  let d := foldl (fun d kv => <[kv.1 := Some kv.2]> d) ∅ (zip fieldnames row) in
  foldl (fun d k => <[k := None]> d) d (drop (length row) fieldnames).

Definition is_blank (row : list string) : bool :=
  match row with [] => true | _ => false end.

(** [list(csv.DictReader(db))]: the first row gives the field names, blank
    rows are skipped. *)
Definition DictReader (rows : list (list string))
  : list (gmap string (option string)) :=
  match rows with
  | [] => []
  | fieldnames :: rest =>
      map (DictReader_row fieldnames)
          (List.filter (fun r => negb (is_blank r)) rest)
  end.

(** [data[k]] *)
Definition getitem (data : gmap string (option string)) (k : string)
  : M (option string) :=
  match data !! k with
  | Some c => mret c
  | None => raise (KeyError k)
  end.

Definition cell (c : option string) : pyval :=
  match c with Some s => VStr s | None => VNone end.

(** The body of the loop of lines 109 to 116. *)
Definition load_row (metadata : gmap (option string) loc)
    (data : gmap string (option string)) : M (gmap (option string) loc) :=
  path ← getitem data "path";
  birthdate ← getitem data "birthdate";
  last_access ← getitem data "last_access";
  importance_level ← getitem data "importance_level";
  e ← EntityData_init (cell path) (cell birthdate) (cell last_access)
                      (cell importance_level);
  mret (<[path := e]> metadata).

(** [Memory.load_last_metadata] (lines 81 to 119).  The dictionary
    [metadata] is known to this call alone until it is returned, so it is kept
    as a value during the loop and becomes a heap object at the [return]. *)
Definition load_last_metadata (self_path : string) : M loc :=
  rows ← open_read self_path;
  metadata ← foldM load_row ∅ (DictReader rows);
  alloc (ODict metadata).

(** [Memory.__init__] (lines 77 to 79). *)
Definition Memory_init (path : string) : M Memory :=
  d ← load_last_metadata path;
  mret (mkMemory path d).

Definition HEADER : list string :=
  ["path"; "birthdate"; "last_access"; "importance_level"].

(** The row of lines 164 to 169; [csv.writer] writes a float or an int cell
    as its [str]. *)
Definition row_of (e : EntityData) : list string :=
  [path e; str_of_float (birthdate e); str_of_float (last_access e);
   str_of_int (importance_level e)].

(** The body of the loop of lines 162 to 169. *)
Definition update_row (self : Memory) (entity : loc) : M unit :=
  dep ← is_deprecated entity;
  if negb dep then
    e ← get_entity entity;
    writerow (mem_path self) (row_of e)
  else mret tt.

(** [Memory.update] (lines 123 to 169). *)
Definition Memory_update (self : Memory) (entities : list loc) : M unit :=
  open_write (mem_path self);;
  writerow (mem_path self) HEADER;;
  forM_ (update_row self) entities.

(** *** The functions of the module (lines 176 to 279) *)

(** [extract_data] (lines 176 to 202); [entity] is the [Path], given by its
    string. *)
Definition extract_data (entity : string) : M loc :=
  s1 ← os_stat entity;
  let birthdate := st_birthtime s1 in
  s2 ← os_stat entity;
  let last_access := st_atime s2 in
  EntityData_init (VStr entity) (VFloat birthdate) (VFloat last_access) (VInt 0).

(** [update_data] (lines 204 to 244). *)
Definition update_data (data : loc) (db : Memory) : M unit :=
  md ← get_dict (last_metadata db);
  d ← get_entity data;
  match md !! Some (path d) with
  | None => mret tt
  | Some l =>
      last ← get_entity l;
      let old_last_access := last_access last in
      d' ← get_entity data;
      let new_last_access := last_access d' in
      if new_last_access >? old_last_access then
        last' ← get_entity l;
        setattr_importance_level data (importance_level last' + 1)
      else mret tt
  end.

(** The destination of line 249 for the source [src], [t] being the value of
    [datetime.now()]. *)
Definition archive_dst (t : datetime) (src : string) : string :=
  path_join (ARCHIVE_PATH +:+ "/" +:+ str_of_datetime t) (path_name src).

(** [archive_data] (lines 247 to 251). *)
Definition archive_data (entity : loc) : M unit :=
  e ← get_entity entity;
  let src := path_str (path e) in
  t ← now;
  let dst := archive_dst t src in
  fs_apply (Rename src dst);;
  print (src +:+ " has been move to archive").

(** [delete_data] (lines 253 to 256). *)
Definition delete_data (entity : loc) : M unit :=
  e ← get_entity entity;
  let src := path_str (path e) in
  fs_apply (Send2Trash src);;
  print (src +:+ " has been move to trash").

(** The dispatch of lines 270 to 274. *)
Definition dispatch (entity : loc) : M unit :=
  dep ← is_deprecated entity;
  if (dep : bool) then
    imp ← is_important entity;
    if (imp : bool) then archive_data entity else delete_data entity
  else mret tt.

(** The body of the loop of lines 266 to 277. *)
Definition browse_entity (db : Memory) (entities_metadata : list loc)
    (entity : string) : M (list loc) :=
  entity ← extract_data entity;
  update_data entity db;;
  dispatch entity;;
  mret (entities_metadata ++ [entity]).

(** [browse_files] (lines 258 to 279). *)
Definition browse_files (path db_path : string) : M unit :=
  db ← Memory_init db_path;
  entities ← os_walk_next path;
  let dirs := entities.1 in
  let files := entities.2 in
  let entities := map (path_join path) (dirs ++ files) in
  entities_metadata ← foldM (browse_entity db) [] entities;
  Memory_update db entities_metadata.

(** Line 281, with the default [db_path]. *)
Definition main : M unit := browse_files DOWNLOADS_PATH "./test.csv".

End Program.

(** ** A reference instance of the library

    Integers are printed in decimal; a float is printed as the decimal count
    of microseconds it stands for; a [datetime] is printed as Python prints
    it, [YYYY-MM-DD HH:MM:SS] followed by [.ffffff] when the microseconds are
    not zero; paths follow [pathlib] on Windows for paths of the form the scan
    produces (a directory and a name). *)

Module Ref.

Definition str_of_Z (n : Z) : string := NilZero.string_of_int (Z.to_int n).

Definition Z_of_str (s : string) : option Z :=
  match NilZero.int_of_string s with
  | Some d => Some (Z.of_int d)
  | None => None
  end.

(** [n] in decimal, padded with zeros to at least [width] digits; [n >= 0]. *)
Fixpoint zeros (k : nat) : string :=
  match k with O => "" | S k' => "0" +:+ zeros k' end.

Definition pad (width : nat) (n : Z) : string :=
  let s := str_of_Z n in
  zeros (width - String.length s) +:+ s.

(** Days since 1970-01-01 to (year, month, day) of the proleptic Gregorian
    calendar. *)
Definition civil_from_days (days : Z) : Z * Z * Z :=
  let z := days + 719468 in
  let era := z / 146097 in
  let doe := z - era * 146097 in
  let yoe := (doe - doe / 1460 + doe / 36524 - doe / 146096) / 365 in
  let doy := doe - (365 * yoe + yoe / 4 - yoe / 100) in
  let mp := (5 * doy + 2) / 153 in
  let d := doy - (153 * mp + 2) / 5 + 1 in
  let m := if mp <? 10 then mp + 3 else mp - 9 in
  let y := yoe + era * 400 + (if m <=? 2 then 1 else 0) in
  (y, m, d).

Definition str_of_datetime (t : datetime) : string :=
  let us := t mod 1000000 in
  let secs := t / 1000000 in
  let sod := secs mod 86400 in
  let '(y, m, d) := civil_from_days (secs / 86400) in
  pad 4 y +:+ "-" +:+ pad 2 m +:+ "-" +:+ pad 2 d +:+ " " +:+
  pad 2 (sod / 3600) +:+ ":" +:+ pad 2 (sod mod 3600 / 60) +:+ ":" +:+
  pad 2 (sod mod 60) +:+
  (if us =? 0 then "" else "." +:+ pad 6 us).

Definition is_sep (c : ascii) : bool :=
  (Ascii.eqb c "\" || Ascii.eqb c "/")%bool.

(** [str(Path(s))]: the separators become backslashes. *)
Fixpoint path_str (s : string) : string :=
  match s with
  | EmptyString => EmptyString
  | String c s' => String (if is_sep c then "\"%char else c) (path_str s')
  end.

(** The characters after the last separator. *)
Fixpoint path_name_from (acc s : string) : string :=
  match s with
  | EmptyString => acc
  | String c s' =>
      if is_sep c then path_name_from s' s' else path_name_from acc s'
  end.

Definition path_name (s : string) : string := path_name_from s s.

Definition path_join (a b : string) : string := path_str a +:+ "\" +:+ b.



End Ref.

#[global] Instance RefLib : PyLib := {|
  float_of_str := Ref.Z_of_str;
  str_of_float := Ref.str_of_Z;
  int_of_str := Ref.Z_of_str;
  str_of_int := Ref.str_of_Z;
  str_of_datetime := Ref.str_of_datetime;
  path_str := Ref.path_str;
  path_name := Ref.path_name;
  path_join := Ref.path_join
|}.

(** ** Concrete worlds

    The clock starts at [NOW] (2027-01-15 08:00:00) and advances by one
    microsecond at each reading; the snapshot is [./test.csv], the default
    [db_path]; the scanned directory is [DOWNLOADS_PATH] and holds the files
    [names]; no operation is refused. *)

Definition NOW : datetime := 1800000000 * 1000000.

Definition days_ago (d : Z) : timestamp := NOW - timedelta_days d.

Definition demo_world (csv : list (list string)) (names : list string)
    (st : list (string * stat_result)) : world :=
  {| heap := ∅;
     clock := fun n => NOW + Z.of_nat n;
     ticks := 0;
     files := {[ "./test.csv" := csv ]};
     walk := fun p => if String.eqb p DOWNLOADS_PATH then Some ([], names) else None;
     stat := fun p => snd <$> List.find (fun kv => String.eqb p (fst kv)) st;
     refuses := fun _ => false;
     moved := [];
     stdout := [] |}.

Definition a_txt : string := "D:\Téléchargements\a.txt".
Definition b_txt : string := "D:\Téléchargements\b.txt".

(** Entity B of the scenario: importance 3 in the snapshot, last access 40
    days ago, and the same last access in the fresh [stat]. *)
Definition world_B : world :=
  demo_world
    [ ["path"; "birthdate"; "last_access"; "importance_level"];
      [b_txt; Ref.str_of_Z (days_ago 100); Ref.str_of_Z (days_ago 40); "3"] ]
    ["b.txt"]
    [ (b_txt, mkStat (days_ago 100) (days_ago 40)) ].


(** Entity A of the scenarios after the snapshot was loaded and the entity
    was stat'ed: the snapshot record (importance 2, last access 40 days ago)
    at 1, the dictionary at 2, the fresh record (last access one day ago) at
    3. *)
Definition prev_A : EntityData := mkEntityData a_txt (days_ago 100) (days_ago 40) 2.
Definition fresh_A : EntityData := mkEntityData a_txt (days_ago 100) (days_ago 1) 0.
Definition md_A : gmap (option string) loc := {[ Some a_txt := 1%positive ]}.
Definition db_A : Memory := mkMemory "./test.csv" 2%positive.

Definition world_A : world :=
  with_heap
    (<[3%positive := OEntity fresh_A]>
       (<[2%positive := ODict md_A]> {[ 1%positive := OEntity prev_A ]}))
    (demo_world
       [ ["path"; "birthdate"; "last_access"; "importance_level"];
         [a_txt; Ref.str_of_Z (days_ago 100); Ref.str_of_Z (days_ago 40); "2"] ]
       ["a.txt"]
       [ (a_txt, mkStat (days_ago 100) (days_ago 1)) ]).

(** Entity B once the snapshot was loaded: the snapshot record at 1, the
    dictionary at 2; the entity is not stat'ed yet. *)
Definition prev_B : EntityData := mkEntityData b_txt (days_ago 100) (days_ago 40) 3.
Definition md_B : gmap (option string) loc := {[ Some b_txt := 1%positive ]}.
Definition db_B : Memory := mkMemory "./test.csv" 2%positive.

Definition world_B_loaded : world :=
  with_heap (<[2%positive := ODict md_B]> {[ 1%positive := OEntity prev_B ]})
            world_B.

(** A snapshot whose second row has a birthdate that is not a number. *)
Definition world_bad_row : world :=
  demo_world
    [ ["path"; "birthdate"; "last_access"; "importance_level"];
      [a_txt; Ref.str_of_Z (days_ago 100); Ref.str_of_Z (days_ago 40); "2"];
      [b_txt; "yesterday"; Ref.str_of_Z (days_ago 40); "3"] ]
    [] [].

(** The record an [EntityData] reference points to, and the record the
    snapshot [db.last_metadata] holds under a key. *)
Definition entity_at (h : gmap loc pyobj) (l : loc) : option EntityData :=
  match h !! l with
  | Some (OEntity e) => Some e
  | _ => None
  end.

Definition snapshot_record (h : gmap loc pyobj) (db : Memory)
    (k : option string) : option EntityData :=
  match h !! last_metadata db with
  | Some (ODict md) => md !! k ≫= entity_at h
  | _ => None
  end.

(** Lines 259, 267 and 268 for the one entity [entity]. *)
Definition load_and_accrue `{PyLib} (db_path entity : string) : M (Memory * loc) :=
  db ← Memory_init db_path;
  data ← extract_data entity;
  update_data data db;;
  mret (db, data).



(** The one operation the dispatch asks of the file system for a stale
    record [e] in the world [w]: chosen by [important] alone.  The reading of
    the clock that names the archive directory is the one after the reading
    of the staleness test. *)
Definition dispatch_op `{PyLib} (w : world) (e : EntityData) : fs_op :=
  let src := path_str (path e) in
  if important e then Rename src (archive_dst (clock w (S (ticks w))) src)
  else Send2Trash src.

(** The last record of [es] whose path is [p]: what a mapping keyed by path
    holds under [p] once the records of [es] were stored in turn. *)
Definition last_with_path (p : string) (es : list EntityData)
  : option EntityData :=
  last (filter (fun e => path e = p) es).

(** The dictionary [md] of the heap [h] holds, under each path, the last
    record of [es] with that path, and has no other key. *)
Definition holds_snapshot (h : gmap loc pyobj) (md : gmap (option string) loc)
    (es : list EntityData) : Prop :=
  md !! None = None /\
  forall p,
    match md !! Some p with
    | Some l => exists e, h !! l = Some (OEntity e) /\ last_with_path p es = Some e
    | None => last_with_path p es = None
    end.

(** A row of [csv.DictReader] one of whose numeric cells is a string that
    [float] (for the two timestamps) or [int] (for the importance) rejects. *)
Definition non_numeric `{PyLib} (data : gmap string (option string)) : Prop :=
  (exists s, data !! "birthdate" = Some (Some s) /\ float_of_str s = None) \/
  (exists s, data !! "last_access" = Some (Some s) /\ float_of_str s = None) \/
  (exists s, data !! "importance_level" = Some (Some s) /\ int_of_str s = None).

(** The exceptions the coercions and the lookups of a row raise. *)
Definition load_error (e : exn) : Prop :=
  e = ValueError \/ e = TypeError \/ exists k, e = KeyError k.

(** ** Frames

    What a piece of the program leaves alone, as a relation between the world
    before and the world after. *)

(** [c] relates the world it is run in and the world it leaves by [P],
    whether it returns or raises. *)
Definition preserves {A : Type} (P : world -> world -> Prop) (c : M A) : Prop :=
  forall w r w', c w = (r, w') -> P w w'.

(** The fields no statement of the program writes. *)
Definition same_env (w w' : world) : Prop :=
  clock w' = clock w /\ walk w' = walk w /\ stat w' = stat w /\
  refuses w' = refuses w.

(** [w'] is [w] with new heap objects, and nothing else. *)
Definition only_allocates (w w' : world) : Prop :=
  (forall l o, heap w !! l = Some o -> heap w' !! l = Some o) /\
  same_env w w' /\ ticks w' = ticks w /\ files w' = files w /\
  moved w' = moved w /\ stdout w' = stdout w.


(** A row the loader accepts under the standard header, and the record it
    gives: four cells, of which the second and third are read by [float] and
    the fourth by [int]; further cells are not looked at. *)
Definition parse_row `{PyLib} (row : list string) : option EntityData :=
  match row with
  | p :: b :: a :: i :: _ =>
      match float_of_str b, float_of_str a, int_of_str i with
      | Some tb, Some ta, Some n => Some (mkEntityData p tb ta n)
      | _, _, _ => None
      end
  | _ => None
  end.


(** The record [extract_data] and [update_data] leave for the entity [p]
    whose [stat] is [s], [prev] being the record of the snapshot for [p]. *)
Definition accrued (prev : option EntityData) (p : string) (s : stat_result)
  : EntityData :=
  mkEntityData p (st_birthtime s) (st_atime s)
    (match prev with
     | Some pr =>
         if st_atime s >? last_access pr then importance_level pr + 1 else 0
     | None => 0
     end).

(** The operation of [archive_data] (with [t] the reading that names the
    directory) or [delete_data] for the record [e], chosen as lines 271 to 274
    choose. *)
Definition op_for `{PyLib} (t : datetime) (e : EntityData) : fs_op :=
  let src := path_str (path e) in
  if important e then Rename src (archive_dst t src) else Send2Trash src.


(** *** More concrete worlds *)

(** No snapshot file at all. *)
Definition world_no_snapshot : world := with_files ∅ world_B.

(** A snapshot with the header and nothing else. *)
Definition world_header_only : world :=
  demo_world [ ["path"; "birthdate"; "last_access"; "importance_level"] ] [] [].

(** A snapshot whose first line has no [path] column. *)
Definition world_no_path_column : world :=
  demo_world
    [ ["birthdate"; "last_access"; "importance_level"];
      [Ref.str_of_Z (days_ago 100); Ref.str_of_Z (days_ago 40); "2"] ]
    [] [].

(** A snapshot whose second line stops after the birthdate. *)
Definition world_short_row : world :=
  demo_world
    [ ["path"; "birthdate"; "last_access"; "importance_level"];
      [a_txt; Ref.str_of_Z (days_ago 100)] ]
    [] [].

(** A snapshot, not written by the program, with a fifth cell and two lines
    for the same path. *)
Definition first_A : EntityData := mkEntityData a_txt (days_ago 200) (days_ago 90) 7.
Definition world_extra_cell : world :=
  demo_world
    [ ["path"; "birthdate"; "last_access"; "importance_level"];
      [a_txt; Ref.str_of_Z (days_ago 200); Ref.str_of_Z (days_ago 90); "7"; "old"];
      [a_txt; Ref.str_of_Z (days_ago 100); Ref.str_of_Z (days_ago 40); "2"] ]
    [] [].


(** * Properties *)

(** ** Running the monad *)

Lemma bind_ok {A B : Type} (c : M A) (f : A -> M B) (w w' : world) (a : A) :
  c w = (Ok a, w') -> (c ≫= f) w = f a w'.
Proof. intros H. unfold mbind, M_bind. by rewrite H. Qed.

Lemma bind_raise {A B : Type} (c : M A) (f : A -> M B) (w w' : world) (e : exn) :
  c w = (Raise e, w') -> (c ≫= f) w = (Raise e, w').
Proof. intros H. unfold mbind, M_bind. by rewrite H. Qed.

Lemma get_entity_ok (w : world) (l : loc) (e : EntityData) :
  heap w !! l = Some (OEntity e) -> get_entity l w = (Ok e, w).
Proof. intros H. unfold get_entity. by rewrite H. Qed.

Lemma get_dict_ok (w : world) (l : loc) (d : gmap (option string) loc) :
  heap w !! l = Some (ODict d) -> get_dict l w = (Ok d, w).
Proof. intros H. unfold get_dict. by rewrite H. Qed.

Lemma setattr_importance_level_ok (w : world) (l : loc) (e : EntityData) (n : Z) :
  heap w !! l = Some (OEntity e) ->
  setattr_importance_level l n w =
    (Ok tt, with_heap (<[l := OEntity (set_importance_level e n)]> (heap w)) w).
Proof. intros H. unfold setattr_importance_level. by rewrite H. Qed.

(** Reading an attribute changes nothing, whether it succeeds or raises. *)
Lemma get_entity_world (w w' : world) (l : loc) (r : result EntityData) :
  get_entity l w = (r, w') -> w' = w.
Proof.
  unfold get_entity. destruct (heap w !! l) as [[e|d]|]; congruence.
Qed.

Lemma get_dict_world (w w' : world) (l : loc)
    (r : result (gmap (option string) loc)) :
  get_dict l w = (r, w') -> w' = w.
Proof.
  unfold get_dict. destruct (heap w !! l) as [[e|d]|]; congruence.
Qed.

Section Properties.
Context {L : PyLib}.

(** ** Staleness *)

Lemma deprecated_at_iff (dt : datetime) (e : EntityData) :
  deprecated_at dt e = true <->
  dt > fromtimestamp (last_access e) + timedelta_days TIME_LIMIT_IN_DAYS.
Proof. unfold deprecated_at. rewrite Z.gtb_gt. reflexivity. Qed.

Lemma is_deprecated_ok (w : world) (self : loc) (e : EntityData) :
  heap w !! self = Some (OEntity e) ->
  is_deprecated self w =
    (Ok (deprecated_at (clock w (ticks w)) e), with_ticks (S (ticks w)) w).
Proof.
  intros H. unfold is_deprecated, mbind, M_bind, now, get_entity. simpl.
  by rewrite H.
Qed.


(** ** Accrual: [update_data] *)

(** What [update_data] computes when its two arguments are what the
    annotations say. *)
Lemma update_data_run (w : world) (data : loc) (db : Memory) (d : EntityData)
    (md : gmap (option string) loc) :
  heap w !! data = Some (OEntity d) ->
  heap w !! last_metadata db = Some (ODict md) ->
  update_data data db w =
    match md !! Some (path d) with
    | None => (Ok tt, w)
    | Some l =>
        match heap w !! l with
        | Some (OEntity prev) =>
            if last_access d >? last_access prev then
              (Ok tt,
               with_heap (<[data := OEntity (set_importance_level d
                                    (importance_level prev + 1))]> (heap w)) w)
            else (Ok tt, w)
        | _ => (Raise AttributeError, w)
        end
    end.
Proof.
  intros Hd Hmd. unfold update_data.
  rewrite (bind_ok _ _ _ _ _ (get_dict_ok _ _ _ Hmd)). cbv beta.
  rewrite (bind_ok _ _ _ _ _ (get_entity_ok _ _ _ Hd)). cbv beta.
  destruct (md !! Some (path d)) as [l|]; [|reflexivity].
  destruct (heap w !! l) as [[prev|d0]|] eqn:Hl.
  - rewrite (bind_ok _ _ _ _ _ (get_entity_ok _ _ _ Hl)). cbv beta.
    rewrite (bind_ok _ _ _ _ _ (get_entity_ok _ _ _ Hd)). cbv beta zeta.
    destruct (last_access d >? last_access prev); [|reflexivity].
    rewrite (bind_ok _ _ _ _ _ (get_entity_ok _ _ _ Hl)). cbv beta.
    by apply setattr_importance_level_ok.
  - unfold mbind, M_bind, get_entity. by rewrite Hl.
  - unfold mbind, M_bind, get_entity. by rewrite Hl.
Qed.


(** [update_data] either leaves the world as it is or stores a new importance
    in [data], whatever it is given and whether it returns or raises. *)
Lemma update_data_world (w w' : world) (data : loc) (db : Memory) (r : result unit) :
  update_data data db w = (r, w') ->
  w' = w \/
  exists d n, heap w !! data = Some (OEntity d) /\
    w' = with_heap (<[data := OEntity (set_importance_level d n)]> (heap w)) w.
Proof.
  unfold update_data, mbind, M_bind.
  destruct (get_dict (last_metadata db) w) as [[md|e] w1] eqn:E2;
    pose proof (get_dict_world _ _ _ _ E2) as ->; [|intros [= _ <-]; by left].
  destruct (get_entity data w) as [[d|e] w1] eqn:E1;
    pose proof (get_entity_world _ _ _ _ E1) as ->; [|intros [= _ <-]; by left].
  destruct (md !! Some (path d)) as [l|]; [|intros [= _ <-]; by left].
  destruct (get_entity l w) as [[prev|e] w1] eqn:E3;
    pose proof (get_entity_world _ _ _ _ E3) as ->; [|intros [= _ <-]; by left].
  rewrite E1.
  destruct (last_access d >? last_access prev); [|intros [= _ <-]; by left].
  rewrite E3. unfold setattr_importance_level.
  destruct (heap w !! data) as [[d0|?]|] eqn:Hd; intros [= _ <-]; try by left.
  right. by exists d0, (importance_level prev + 1).
Qed.

(** C9: [update_data] changes at most the [importance_level] of the record it
    is given.  That record keeps its path, birthdate and last access; every
    other object of the heap is the same afterwards, so the dictionary
    [last_metadata] and every record stored in it (the fresh record is not one
    of them) are unmodified; the clock, the files and the file system are
    untouched. *)
Theorem update_data_frame (w w' : world) (data : loc) (db : Memory)
    (r : result unit) (d : EntityData) (md : gmap (option string) loc) :
  heap w !! data = Some (OEntity d) ->
  heap w !! last_metadata db = Some (ODict md) ->
  (forall k, md !! k <> Some data) ->
  update_data data db w = (r, w') ->
  (exists d', heap w' !! data = Some (OEntity d') /\
     path d' = path d /\ birthdate d' = birthdate d /\
     last_access d' = last_access d) /\
  (forall l, l <> data -> heap w' !! l = heap w !! l) /\
  heap w' !! last_metadata db = Some (ODict md) /\
  (forall k l, md !! k = Some l -> heap w' !! l = heap w !! l) /\
  ticks w' = ticks w /\ files w' = files w /\ moved w' = moved w /\
  stdout w' = stdout w.
Proof.
  intros Hd Hmd Hfresh Hrun.
  assert (Hne : last_metadata db <> data) by congruence.
  destruct (update_data_world _ _ _ _ _ Hrun) as [->|(d0 & n & Hd0 & ->)].
  - repeat split; eauto.
  - assert (d0 = d) as -> by congruence.
    simpl. repeat split.
    + exists (set_importance_level d n). by rewrite lookup_insert_eq.
    + intros l Hl. by rewrite lookup_insert_ne.
    + by rewrite lookup_insert_ne.
    + intros k l Hk. rewrite lookup_insert_ne; [done|].
      intros <-. by apply (Hfresh k).
Qed.

(** ** Dispatch: archive, trash or retain *)

Lemma fresh_loc_None (h : gmap loc pyobj) : h !! fresh (dom h) = None.
Proof. apply not_elem_of_dom, is_fresh. Qed.

Lemma lookup_alloc_old (h : gmap loc pyobj) (o o' : pyobj) (l : loc) :
  h !! l = Some o -> <[fresh (dom h) := o']> h !! l = Some o.
Proof.
  intros H. rewrite lookup_insert_ne; [done|].
  intros <-. rewrite fresh_loc_None in H. discriminate.
Qed.

Lemma archive_data_run (w : world) (entity : loc) (e : EntityData) :
  heap w !! entity = Some (OEntity e) ->
  let src := path_str (path e) in
  let op := Rename src (archive_dst (clock w (ticks w)) src) in
  archive_data entity w =
    if refuses w op then (Raise OSError, with_ticks (S (ticks w)) w)
    else (Ok tt,
          with_stdout (stdout w ++ [src +:+ " has been move to archive"])
            (with_moved (moved w ++ [op]) (with_ticks (S (ticks w)) w))).
Proof.
  intros H src op. unfold archive_data.
  rewrite (bind_ok _ _ _ _ _ (get_entity_ok _ _ _ H)). cbv beta zeta.
  unfold mbind, M_bind, now, fs_apply, print. simpl.
  fold src. fold (archive_dst (clock w (ticks w)) src). fold op.
  by destruct (refuses w op).
Qed.

Lemma delete_data_run (w : world) (entity : loc) (e : EntityData) :
  heap w !! entity = Some (OEntity e) ->
  let src := path_str (path e) in
  delete_data entity w =
    if refuses w (Send2Trash src) then (Raise OSError, w)
    else (Ok tt,
          with_stdout (stdout w ++ [src +:+ " has been move to trash"])
            (with_moved (moved w ++ [Send2Trash src]) w)).
Proof.
  intros H src. unfold delete_data.
  rewrite (bind_ok _ _ _ _ _ (get_entity_ok _ _ _ H)). cbv beta zeta.
  unfold mbind, M_bind, fs_apply, print. simpl. fold src.
  by destruct (refuses w (Send2Trash src)).
Qed.

Lemma is_important_ok (w : world) (self : loc) (e : EntityData) :
  heap w !! self = Some (OEntity e) ->
  is_important self w = (Ok (important e), w).
Proof.
  intros H. unfold is_important.
  by rewrite (bind_ok _ _ _ _ _ (get_entity_ok _ _ _ H)).
Qed.

Lemma dispatch_run (w : world) (entity : loc) (e : EntityData) :
  heap w !! entity = Some (OEntity e) ->
  exists w',
    dispatch entity w =
      (if deprecated_at (clock w (ticks w)) e
       then if refuses w (dispatch_op w e) then Raise OSError else Ok tt
       else Ok tt, w') /\
    heap w' = heap w /\ files w' = files w /\ clock w' = clock w /\
    refuses w' = refuses w /\ stat w' = stat w /\ walk w' = walk w /\
    moved w' =
      (if deprecated_at (clock w (ticks w)) e
       then if refuses w (dispatch_op w e) then moved w
            else moved w ++ [dispatch_op w e]
       else moved w).
Proof.
  intros H. unfold dispatch.
  rewrite (bind_ok _ _ _ _ _ (is_deprecated_ok _ _ _ H)). cbv beta.
  destruct (deprecated_at (clock w (ticks w)) e); cbv iota.
  - rewrite (bind_ok _ _ _ _ _
               (is_important_ok (with_ticks (S (ticks w)) w) _ e H)).
    cbv beta. unfold dispatch_op. destruct (important e).
    + rewrite (archive_data_run (with_ticks (S (ticks w)) w) _ _ H). simpl.
      destruct (refuses w _); eexists; (split; [reflexivity|done]).
    + rewrite (delete_data_run (with_ticks (S (ticks w)) w) _ _ H). simpl.
      destruct (refuses w _); eexists; (split; [reflexivity|done]).
  - eexists. split; [reflexivity|done].
Qed.

Lemma extract_data_ok (w : world) (entity : string) (s : stat_result) :
  stat w entity = Some s ->
  extract_data entity w =
    (Ok (fresh (dom (heap w))),
     with_heap (<[fresh (dom (heap w)) :=
                  OEntity (mkEntityData entity (st_birthtime s) (st_atime s) 0)]>
                (heap w)) w).
Proof.
  intros H. unfold extract_data, mbind, M_bind, os_stat. rewrite H. simpl.
  rewrite H. reflexivity.
Qed.




(** ** The snapshot: [Memory.update] *)






(** ** Loading the snapshot: errors *)

Lemma getitem_world (data : gmap string (option string)) (k : string)
    (w w' : world) (r : result (option string)) :
  getitem data k w = (r, w') ->
  w' = w /\ (forall e, r = Raise e -> e = KeyError k) /\
  (forall c, r = Ok c -> data !! k = Some c).
Proof.
  unfold getitem. destruct (data !! k); intros [= <- <-];
    repeat split; congruence.
Qed.

Lemma py_float_error (v : pyval) (e : exn) :
  py_float v = Raise e -> e = ValueError \/ e = TypeError.
Proof.
  destruct v; simpl; try destruct (float_of_str s); intros [= <-]; auto.
Qed.

Lemma py_int_error (v : pyval) (e : exn) :
  py_int v = Raise e -> e = ValueError \/ e = TypeError.
Proof.
  destruct v; simpl; try destruct (int_of_str s); intros [= <-]; auto.
Qed.

Lemma EntityData_init_world (p b a i : pyval) (w w' : world) (r : result loc) :
  EntityData_init p b a i w = (r, w') ->
  files w' = files w /\
  (forall e, r = Raise e ->
     (e = ValueError \/ e = TypeError) /\
     (py_float b = Raise e \/ py_float a = Raise e \/ py_int i = Raise e)) /\
  (forall l, r = Ok l ->
     exists tb ta n, py_float b = Ok tb /\ py_float a = Ok ta /\ py_int i = Ok n).
Proof.
  unfold EntityData_init, mbind, M_bind, lift_result, alloc.
  destruct (py_float b) as [tb|eb] eqn:Hb.
  2:{ intros [= <- <-]. split; [done|]. split; [|intros ? [=]].
      intros ? [= <-]. split; [by eapply py_float_error|auto]. }
  destruct (py_float a) as [ta|ea] eqn:Ha.
  2:{ intros [= <- <-]. split; [done|]. split; [|intros ? [=]].
      intros ? [= <-]. split; [by eapply py_float_error|auto]. }
  destruct (py_int i) as [n|ei] eqn:Hi.
  2:{ intros [= <- <-]. split; [done|]. split; [|intros ? [=]].
      intros ? [= <-]. split; [by eapply py_int_error|auto]. }
  intros [= <- <-]. split; [done|]. split; [intros ? [=]|].
  intros _ _. by exists tb, ta, n.
Qed.

(** A turn of the loading loop leaves the files alone and raises nothing but
    [load_error]s. *)
Lemma load_row_world (md : gmap (option string) loc)
    (data : gmap string (option string)) (w w' : world)
    (r : result (gmap (option string) loc)) :
  load_row md data w = (r, w') ->
  files w' = files w /\ (forall e, r = Raise e -> load_error e).
Proof.
  unfold load_row, load_error. intros Hrun.
  repeat match type of Hrun with
    | (getitem ?d ?k ≫= ?f) ?w0 = _ =>
        let Hg := fresh "Hg" in
        destruct (getitem d k w0) as [[?|?] ?] eqn:Hg;
        destruct (getitem_world _ _ _ _ _ Hg) as (-> & ? & ?);
        [rewrite (bind_ok _ _ _ _ _ Hg) in Hrun; cbv beta in Hrun
        |rewrite (bind_raise _ _ _ _ _ Hg) in Hrun;
         injection Hrun as <- <-; split; [done|]; intros ? [= <-]; eauto]
    end.
  match type of Hrun with
  | (?c ≫= ?f) ?w0 = _ => destruct (c w0) as [[l|e] w1] eqn:Hi
  end;
    destruct (EntityData_init_world _ _ _ _ _ _ _ Hi) as (Hf & Herr & _).
  - rewrite (bind_ok _ _ _ _ _ Hi) in Hrun. injection Hrun as <- <-.
    split; [done|]. intros ? [=].
  - rewrite (bind_raise _ _ _ _ _ Hi) in Hrun. injection Hrun as <- <-.
    split; [done|]. intros ? [= <-].
    destruct (Herr e eq_refl) as [[->| ->] _]; auto.
Qed.

Lemma load_row_non_numeric (md : gmap (option string) loc)
    (data : gmap string (option string)) (w : world) :
  non_numeric data ->
  exists e w', load_row md data w = (Raise e, w').
Proof.
  intros Hbad.
  destruct (load_row md data w) as [[md'|e] w'] eqn:Hrun; [|eauto].
  exfalso. unfold load_row in Hrun.
  repeat match type of Hrun with
    | (getitem ?d ?k ≫= ?f) ?w0 = _ =>
        let Hg := fresh "Hg" in
        destruct (getitem d k w0) as [[?|?] ?] eqn:Hg;
        destruct (getitem_world _ _ _ _ _ Hg) as (-> & ? & ?);
        [rewrite (bind_ok _ _ _ _ _ Hg) in Hrun; cbv beta in Hrun
        |rewrite (bind_raise _ _ _ _ _ Hg) in Hrun; discriminate Hrun]
    end.
  match type of Hrun with
  | (?c ≫= ?f) ?w0 = _ => destruct (c w0) as [[l|e] w1] eqn:Hi
  end;
    [|by rewrite (bind_raise _ _ _ _ _ Hi) in Hrun].
  destruct (EntityData_init_world _ _ _ _ _ _ _ Hi) as (_ & _ & Hok).
  destruct (Hok l eq_refl) as (tb & ta & n & Hb & Ha & Hn).
  destruct Hbad as [(s & Hk & Hs)|[(s & Hk & Hs)|(s & Hk & Hs)]];
    repeat match goal with
      | H : forall c, Ok ?x = Ok c -> _ |- _ => specialize (H x eq_refl)
      end;
    simplify_eq; simpl in *; rewrite Hs in *; discriminate.
Qed.

Lemma foldM_load_row_raises (datas : list (gmap string (option string)))
    (data : gmap string (option string)) :
  data ∈ datas -> non_numeric data ->
  forall (md : gmap (option string) loc) (w : world),
    exists e w',
      foldM load_row md datas w = (Raise e, w') /\
      files w' = files w /\ load_error e.
Proof.
  intros Hin Hbad. induction Hin as [data datas|data d0 datas _ IH]; intros md w.
  - destruct (load_row_non_numeric md data w Hbad) as (e & w' & Hrun).
    destruct (load_row_world _ _ _ _ _ Hrun) as [Hf He].
    exists e, w'. simpl. rewrite (bind_raise _ _ _ _ _ Hrun). eauto.
  - simpl. destruct (load_row md d0 w) as [[md'|e] w1] eqn:Hrun;
      destruct (load_row_world _ _ _ _ _ Hrun) as [Hf He].
    + rewrite (bind_ok _ _ _ _ _ Hrun).
      destruct (IH Hbad md' w1) as (e & w' & ? & ? & ?).
      exists e, w'. repeat split; try done. congruence.
    + rewrite (bind_raise _ _ _ _ _ Hrun). exists e, w1. eauto.
Qed.

(** A blank row, which [csv.DictReader] skips, has no cell at all. *)
Lemma DictReader_row_blank (fieldnames : list string) (k : string)
    (c : option string) :
  DictReader_row fieldnames [] !! k = Some c -> c = None.
Proof.
  unfold DictReader_row. rewrite zip_with_nil_r. simpl.
  assert (Hgen : forall d : gmap string (option string),
            (forall c', d !! k = Some c' -> c' = None) ->
            foldl (fun d k => <[k := None]> d) d fieldnames !! k = Some c ->
            c = None).
  { induction fieldnames as [|f fs IH]; intros d Hd; simpl; [by apply Hd|].
    apply IH. intros c'. destruct (decide (f = k)) as [->|Hne].
    - rewrite lookup_insert_eq. congruence.
    - rewrite lookup_insert_ne by done. apply Hd. }
  apply Hgen. intros c'. by rewrite lookup_empty.
Qed.

Lemma blank_row_not_non_numeric (fieldnames : list string) :
  ~ non_numeric (DictReader_row fieldnames []).
Proof.
  intros [(s & Hk & _)|[(s & Hk & _)|(s & Hk & _)]];
    by apply DictReader_row_blank in Hk.
Qed.

(** C7: when some row of the snapshot file (a row after the header) holds a
    string that [float] rejects in a timestamp column or that [int] rejects
    in the importance column, [load_last_metadata] raises, and so
    does the construction of [Memory]: no mapping is returned and no row is
    skipped.  The exception is one of the coercions or lookups of the loop, and
    the file is left as it was. *)
Theorem load_last_metadata_raises_on_non_numeric (w : world) (self_path : string)
    (fieldnames row : list string) (rest : list (list string)) :
  files w !! self_path = Some (fieldnames :: rest) ->
  row ∈ rest ->
  non_numeric (DictReader_row fieldnames row) ->
  exists e w',
    load_last_metadata self_path w = (Raise e, w') /\
    Memory_init self_path w = (Raise e, w') /\
    load_error e /\
    files w' = files w.
Proof.
  intros Hfile Hin Hbad.
  assert (Hne : row <> []) by (intros ->; by apply (blank_row_not_non_numeric fieldnames)).
  assert (Hd : DictReader_row fieldnames row ∈ DictReader (fieldnames :: rest)).
  { simpl. apply list_elem_of_In, in_map, filter_In.
    split; [by apply list_elem_of_In|]. by destruct row. }
  destruct (foldM_load_row_raises _ _ Hd Hbad ∅ w) as (e & w' & Hrun & Hf & He).
  assert (Hload : load_last_metadata self_path w = (Raise e, w')).
  { unfold load_last_metadata.
    rewrite (bind_ok _ _ w w (fieldnames :: rest));
      [|unfold open_read; by rewrite Hfile].
    by rewrite (bind_raise _ _ _ _ _ Hrun). }
  exists e, w'. split; [done|]. split; [|done].
  unfold Memory_init. by rewrite (bind_raise _ _ _ _ _ Hload).
Qed.

(** ** Writing the snapshot and loading it again *)


Lemma holds_snapshot_alloc (h : gmap loc pyobj) (md : gmap (option string) loc)
    (es : list EntityData) (o : pyobj) :
  holds_snapshot h md es -> holds_snapshot (<[fresh (dom h) := o]> h) md es.
Proof.
  intros [HN HS]. split; [done|]. intros p. specialize (HS p).
  destruct (md !! Some p) as [l|]; [|done].
  destruct HS as (e & Hl & Hlast). exists e. split; [|done].
  by apply lookup_alloc_old.
Qed.

Lemma holds_snapshot_store (h : gmap loc pyobj) (md : gmap (option string) loc)
    (es : list EntityData) (e : EntityData) :
  holds_snapshot h md es ->
  holds_snapshot (<[fresh (dom h) := OEntity e]> h)
                 (<[Some (path e) := fresh (dom h)]> md) (es ++ [e]).
Proof.
  intros Hold. destruct (holds_snapshot_alloc h md es (OEntity e) Hold) as [HN HS].
  split; [by rewrite lookup_insert_ne|].
  intros p. unfold last_with_path. rewrite filter_app.
  destruct (decide (path e = p)) as [<-|Hne].
  - rewrite lookup_insert_eq. exists e. split; [apply lookup_insert_eq|].
    rewrite filter_cons_True by done. apply last_snoc.
  - rewrite lookup_insert_ne by congruence.
    rewrite filter_cons_False by done. rewrite filter_nil, app_nil_r.
    apply HS.
Qed.





Lemma last_with_path_is_Some (p : string) (es : list EntityData) :
  is_Some (last_with_path p es) <-> exists e, e ∈ es /\ path e = p.
Proof.
  unfold last_with_path. rewrite last_is_Some. split.
  - intros Hne. destruct (filter (fun e => path e = p) es) as [|e l] eqn:Hf;
      [done|].
    assert (He : e ∈ filter (fun e => path e = p) es)
      by (rewrite Hf; apply list_elem_of_here).
    apply list_elem_of_filter in He as [? ?]. eauto.
  - intros (e & He & Hp) Hnil.
    by apply (filter_nil_not_elem_of _ _ e Hnil).
Qed.


End Properties.

(** ** The program on concrete worlds *)


(** C1, at the failing input: the snapshot holds importance 3 for [b.txt] and
    the fresh [stat] reports the last access of the snapshot; after
    [extract_data] and [update_data] the importance of the fresh record is 0,
    neither 3 nor 4. *)
Theorem importance_reset_when_not_accessed :
  let run := load_and_accrue "./test.csv" b_txt world_B in
  let db := mkMemory "./test.csv" 2%positive in
  let data := 3%positive in
  run.1 = Ok (db, data) /\
  snapshot_record (heap run.2) db (Some b_txt) =
    Some (mkEntityData b_txt (days_ago 100) (days_ago 40) 3) /\
  entity_at (heap run.2) data =
    Some (mkEntityData b_txt (days_ago 100) (days_ago 40) 0).
Proof. repeat split; vm_compute; reflexivity. Qed.

(** C2, at the failing input: entity B (importance 3 in the snapshot, last
    access 40 days ago and unchanged) ends the run with importance 0, is stale
    and not important, and is sent to the trash; nothing is archived. *)
Theorem entity_B_is_trashed :
  let e := mkEntityData b_txt (days_ago 100) (days_ago 40) 0 in
  (main world_B).1 = Ok tt /\
  moved (main world_B).2 = [Send2Trash b_txt] /\
  stdout (main world_B).2 = [b_txt +:+ " has been move to trash"] /\
  entity_at (heap (main world_B).2) 3%positive = Some e /\
  deprecated_at NOW e = true /\ important e = false.
Proof. repeat split; vm_compute; reflexivity. Qed.

(** ** The theorems at concrete inputs *)

Lemma str_of_Z_round_trip (n : Z) : Ref.Z_of_str (Ref.str_of_Z n) = Some n.
Proof.
  unfold Ref.Z_of_str, Ref.str_of_Z. rewrite NilZero.isi.
  - by rewrite DecimalZ.of_to.
  - destruct n; simpl; try discriminate.
    intros [= H]. by apply DecimalPos.Unsigned.to_uint_nonnil in H.
  - destruct n; simpl; try discriminate.
    intros [= H]. by apply DecimalPos.Unsigned.to_uint_nonnil in H.
Qed.

#[global] Instance RefLib_round_trip : PyLibRoundTrip RefLib.
Proof. split; apply str_of_Z_round_trip. Qed.



(** Accrual of entity A: the fresh record keeps its other attributes and
    the rest of the heap is as before. *)
Lemma update_data_frame_witness :
  (exists d', heap (update_data 3%positive db_A world_A).2 !! 3%positive
                = Some (OEntity d') /\
     path d' = a_txt /\ birthdate d' = days_ago 100 /\
     last_access d' = days_ago 1) /\
  (forall l, l <> 3%positive ->
     heap (update_data 3%positive db_A world_A).2 !! l = heap world_A !! l).
Proof.
  assert (Hfresh : forall k, md_A !! k <> Some 3%positive).
  { intros k Hk. unfold md_A in Hk.
    apply lookup_singleton_Some in Hk as [_ Hk]. discriminate Hk. }
  destruct (update_data_frame world_A (update_data 3%positive db_A world_A).2
              3%positive db_A (update_data 3%positive db_A world_A).1
              fresh_A md_A eq_refl eq_refl Hfresh (surjective_pairing _))
    as (Hd & Hothers & _).
  split; [exact Hd|exact Hothers].
Defined.




(** Loading a snapshot whose second row has the birthdate [yesterday]. *)
Lemma load_last_metadata_raises_on_non_numeric_witness :
  exists e w',
    load_last_metadata "./test.csv" world_bad_row = (Raise e, w') /\
    Memory_init "./test.csv" world_bad_row = (Raise e, w') /\
    load_error e /\
    files w' = files world_bad_row.
Proof.
  apply (load_last_metadata_raises_on_non_numeric world_bad_row "./test.csv"
           ["path"; "birthdate"; "last_access"; "importance_level"]
           [b_txt; "yesterday"; Ref.str_of_Z (days_ago 40); "3"]
           [ [a_txt; Ref.str_of_Z (days_ago 100); Ref.str_of_Z (days_ago 40); "2"];
             [b_txt; "yesterday"; Ref.str_of_Z (days_ago 40); "3"] ]).
  - reflexivity.
  - apply list_elem_of_further, list_elem_of_here.
  - left. exists "yesterday". split; vm_compute; reflexivity.
Defined.


(** * Further properties of the program *)

(** ** Composing frames *)

Lemma bind_inv {A B : Type} (c : M A) (f : A -> M B) (w w' : world)
    (r : result B) :
  (c ≫= f) w = (r, w') ->
  (exists a w1, c w = (Ok a, w1) /\ f a w1 = (r, w')) \/
  (exists e, c w = (Raise e, w') /\ r = Raise e).
Proof.
  unfold mbind, M_bind. destruct (c w) as [[a|e] w1]; intros H.
  - left. by exists a, w1.
  - right. exists e. by injection H as <- <-.
Qed.

Section Preserves.
Variable P : world -> world -> Prop.
Hypothesis P_refl : forall w, P w w.
Hypothesis P_trans : forall w1 w2 w3, P w1 w2 -> P w2 w3 -> P w1 w3.

Lemma preserves_ret {A : Type} (a : A) : preserves P (mret a).
Proof. intros w r w' [= _ <-]. apply P_refl. Qed.

Lemma preserves_raise {A : Type} (e : exn) : preserves P (@raise A e).
Proof. intros w r w' [= _ <-]. apply P_refl. Qed.

Lemma preserves_lift_result {A : Type} (x : result A) :
  preserves P (lift_result x).
Proof. intros w r w' [= _ <-]. apply P_refl. Qed.

Lemma preserves_bind {A B : Type} (c : M A) (f : A -> M B) :
  preserves P c -> (forall a, preserves P (f a)) -> preserves P (c ≫= f).
Proof.
  intros Hc Hf w r w' [(a & w1 & Hc1 & Hf1)|(e & Hc1 & _)]%bind_inv.
  - eapply P_trans; [by eapply Hc|by eapply Hf].
  - by eapply Hc.
Qed.

Lemma preserves_foldM {S A : Type} (f : S -> A -> M S) (l : list A) :
  (forall s x, preserves P (f s x)) -> forall s, preserves P (foldM f s l).
Proof.
  intros Hf. induction l as [|x l IH]; intros s; simpl.
  - apply preserves_ret.
  - apply preserves_bind; [apply Hf|apply IH].
Qed.

Lemma preserves_forM_ {A : Type} (f : A -> M unit) (l : list A) :
  (forall x, preserves P (f x)) -> preserves P (forM_ f l).
Proof.
  intros Hf. induction l as [|x l IH]; simpl.
  - apply preserves_ret.
  - apply preserves_bind; [apply Hf|intros _; apply IH].
Qed.



Lemma preserves_open_read (p : string) : preserves P (open_read p).
Proof.
  intros w r w'. unfold open_read.
  destruct (files w !! p); intros [= _ <-]; apply P_refl.
Qed.


Lemma preserves_os_walk_next (p : string) : preserves P (os_walk_next p).
Proof.
  intros w r w'. unfold os_walk_next.
  destruct (walk w p); intros [= _ <-]; apply P_refl.
Qed.

End Preserves.

Lemma only_allocates_refl (w : world) : only_allocates w w.
Proof. by repeat split. Qed.

Lemma only_allocates_trans (w1 w2 w3 : world) :
  only_allocates w1 w2 -> only_allocates w2 w3 -> only_allocates w1 w3.
Proof.
  intros (Hh1 & (?&?&?&?) & ? & ? & ? & ?) (Hh2 & (?&?&?&?) & ? & ? & ? & ?).
  split; [by auto|]. repeat split; congruence.
Qed.

Lemma only_allocates_alloc (o : pyobj) : preserves only_allocates (alloc o).
Proof.
  intros w r w' [= _ <-]. split; [|by repeat split].
  intros l o' Hl. simpl. by apply lookup_alloc_old.
Qed.




Section Loading.
Context {L : PyLib}.

(** ** Loading: what it leaves alone *)

Lemma only_allocates_getitem (data : gmap string (option string)) (k : string) :
  preserves only_allocates (getitem data k).
Proof.
  unfold getitem. destruct (data !! k).
  - apply preserves_ret, only_allocates_refl.
  - apply preserves_raise, only_allocates_refl.
Qed.

Lemma only_allocates_EntityData_init (p b a i : pyval) :
  preserves only_allocates (EntityData_init p b a i).
Proof.
  unfold EntityData_init.
  repeat (apply preserves_bind;
          [exact only_allocates_trans
          |apply preserves_lift_result, only_allocates_refl
          |intros ?]).
  apply only_allocates_alloc.
Qed.

Lemma only_allocates_load_row (md : gmap (option string) loc)
    (data : gmap string (option string)) :
  preserves only_allocates (load_row md data).
Proof.
  unfold load_row.
  repeat (apply preserves_bind;
          [exact only_allocates_trans|apply only_allocates_getitem|intros ?]).
  apply preserves_bind;
    [exact only_allocates_trans|apply only_allocates_EntityData_init|intros ?].
  apply preserves_ret, only_allocates_refl.
Qed.

Lemma load_last_metadata_only_allocates (p : string) :
  preserves only_allocates (load_last_metadata p).
Proof.
  unfold load_last_metadata.
  apply preserves_bind;
    [exact only_allocates_trans
    |apply preserves_open_read, only_allocates_refl|intros rows].
  apply preserves_bind;
    [exact only_allocates_trans| |intros md; apply only_allocates_alloc].
  apply preserves_foldM;
    [exact only_allocates_refl|exact only_allocates_trans|].
  intros md data. apply only_allocates_load_row.
Qed.

Lemma Memory_init_only_allocates (p : string) :
  preserves only_allocates (Memory_init p).
Proof.
  unfold Memory_init.
  apply preserves_bind;
    [exact only_allocates_trans
    |apply load_last_metadata_only_allocates|intros d].
  apply preserves_ret, only_allocates_refl.
Qed.

(** Loading the snapshot, and building [Memory], only create objects: the
    objects that exist stay as they are, and the clock, the files, the file
    system and the output are untouched, also when the load raises. *)
Theorem loading_only_allocates (p : string) (w : world) :
  (forall r w', load_last_metadata p w = (r, w') -> only_allocates w w') /\
  (forall r w', Memory_init p w = (r, w') -> only_allocates w w').
Proof.
  split; intros r w'.
  - apply load_last_metadata_only_allocates.
  - apply Memory_init_only_allocates.
Qed.

(** ** The run when the snapshot or the directory is missing *)

(** When the snapshot file does not exist, [load_last_metadata], [Memory] and
    the whole run raise [FileNotFoundError] at once: the world is as before,
    no file is created, nothing is listed, stat'ed or moved. *)
Theorem missing_snapshot_raises (w : world) (path db_path : string) :
  files w !! db_path = None ->
  load_last_metadata db_path w = (Raise FileNotFoundError, w) /\
  Memory_init db_path w = (Raise FileNotFoundError, w) /\
  browse_files path db_path w = (Raise FileNotFoundError, w).
Proof.
  intros Hfile.
  assert (Hload : load_last_metadata db_path w = (Raise FileNotFoundError, w)).
  { unfold load_last_metadata. apply bind_raise.
    unfold open_read. by rewrite Hfile. }
  assert (Hinit : Memory_init db_path w = (Raise FileNotFoundError, w))
    by (unfold Memory_init; by apply bind_raise).
  repeat split; try done.
  unfold browse_files. by apply bind_raise.
Qed.

(** When the snapshot loads but the directory cannot be listed, the run
    raises [StopIteration] right after the load: the snapshot file is not
    rewritten and nothing is moved or printed. *)
Theorem unlistable_directory_raises (w w1 : world) (path db_path : string)
    (db : Memory) :
  Memory_init db_path w = (Ok db, w1) ->
  walk w path = None ->
  browse_files path db_path w = (Raise StopIteration, w1) /\
  files w1 = files w /\ moved w1 = moved w /\ stdout w1 = stdout w.
Proof.
  intros Hinit Hwalk.
  destruct (Memory_init_only_allocates db_path _ _ _ Hinit)
    as (_ & (_ & Hw & _ & _) & _ & ? & ? & ?).
  repeat split; try done.
  unfold browse_files. rewrite (bind_ok _ _ _ _ _ Hinit). cbv beta.
  apply bind_raise. unfold os_walk_next. by rewrite Hw, Hwalk.
Qed.

(** ** Loading: files without data *)

Lemma DictReader_blank_rows (fieldnames : list string)
    (rest : list (list string)) :
  Forall (fun r => r = []) rest -> DictReader (fieldnames :: rest) = [].
Proof.
  intros Hrest. simpl.
  induction Hrest as [|r rest -> _ IH]; simpl; [done|exact IH].
Qed.

(** A snapshot file without any data (no line at all, or a first line, whatever
    it says, followed by blank lines only) loads to an empty dictionary. *)
Theorem load_without_rows_is_empty (w : world) (p : string)
    (rows : list (list string)) :
  files w !! p = Some rows ->
  Forall (fun r => r = []) (tail rows) ->
  load_last_metadata p w =
    (Ok (fresh (dom (heap w))),
     with_heap (<[fresh (dom (heap w)) := ODict ∅]> (heap w)) w).
Proof.
  intros Hfile Hblank. unfold load_last_metadata.
  rewrite (bind_ok _ _ w w rows); [|unfold open_read; by rewrite Hfile].
  assert (Hd : DictReader rows = []).
  { destruct rows as [|fieldnames rest]; [done|].
    by apply DictReader_blank_rows. }
  rewrite Hd. reflexivity.
Qed.

(** ** Loading: the columns and the cells of a row *)

Lemma foldl_insert_cells_is_Some (kvs : list (string * string))
    (d : gmap string (option string)) (k : string) :
  is_Some (foldl (fun d kv => <[kv.1 := Some kv.2]> d) d kvs !! k) <->
  is_Some (d !! k) \/ k ∈ kvs.*1.
Proof.
  revert d. induction kvs as [|kv kvs IH]; intros d; simpl.
  - rewrite elem_of_nil. tauto.
  - rewrite IH, lookup_insert_is_Some', elem_of_cons.
    split; [intros [[->|?]|?]|intros [?|[->|?]]]; auto.
Qed.

Lemma foldl_insert_missing_is_Some (ks : list string)
    (d : gmap string (option string)) (k : string) :
  is_Some (foldl (fun d k => <[k := None]> d) d ks !! k) <->
  is_Some (d !! k) \/ k ∈ ks.
Proof.
  revert d. induction ks as [|k0 ks IH]; intros d; simpl.
  - rewrite elem_of_nil. tauto.
  - rewrite IH, lookup_insert_is_Some', elem_of_cons.
    split; [intros [[->|?]|?]|intros [?|[->|?]]]; auto.
Qed.

Lemma fst_zip_take (fieldnames row : list string) :
  (zip fieldnames row).*1 = take (length row) fieldnames.
Proof.
  revert row. induction fieldnames as [|f fs IH]; intros [|c row]; simpl;
    try done.
  by rewrite IH.
Qed.

(** The keys of a row of [csv.DictReader] are the field names, whatever the
    length of the row. *)
Lemma DictReader_row_is_Some (fieldnames row : list string) (k : string) :
  is_Some (DictReader_row fieldnames row !! k) <-> k ∈ fieldnames.
Proof.
  unfold DictReader_row.
  rewrite foldl_insert_missing_is_Some, foldl_insert_cells_is_Some.
  rewrite lookup_empty, fst_zip_take.
  rewrite <- (take_drop (length row) fieldnames) at 3.
  rewrite elem_of_app. split; [intros [[[? [=]]|?]|?]|intros [?|?]]; auto.
Qed.

Lemma getitem_missing (fieldnames row : list string) (k : string) (w : world) :
  k ∉ fieldnames ->
  getitem (DictReader_row fieldnames row) k w = (Raise (KeyError k), w).
Proof.
  intros Hk. unfold getitem.
  destruct (DictReader_row fieldnames row !! k) as [c|] eqn:Hc; [|done].
  destruct Hk. apply (DictReader_row_is_Some fieldnames row). by eexists.
Qed.

Lemma getitem_present (fieldnames row : list string) (k : string) (w : world) :
  k ∈ fieldnames ->
  exists c, getitem (DictReader_row fieldnames row) k w = (Ok c, w).
Proof.
  intros Hk. unfold getitem.
  destruct (proj2 (DictReader_row_is_Some fieldnames row k) Hk) as [c ->].
  by exists c.
Qed.

(** A row under a header that lacks a column: the first missing name, in the
    order in which the loop asks for them, is the [KeyError]. *)
Lemma load_row_missing_column (fieldnames row : list string) (k : string)
    (md : gmap (option string) loc) (w : world) :
  k ∈ HEADER -> k ∉ fieldnames ->
  exists k', (k' ∈ HEADER) /\ (k' ∉ fieldnames) /\
    load_row md (DictReader_row fieldnames row) w = (Raise (KeyError k'), w).
Proof.
  intros Hk Hmiss. unfold load_row.
  destruct (decide ("path" ∈ fieldnames)) as [H1|H1]; cycle 1.
  { exists "path". split; [by repeat constructor|]. split; [done|].
    by rewrite (bind_raise _ _ _ _ _ (getitem_missing _ row _ w H1)). }
  destruct (getitem_present _ row _ w H1) as [c1 E1].
  rewrite (bind_ok _ _ _ _ _ E1). cbv beta.
  destruct (decide ("birthdate" ∈ fieldnames)) as [H2|H2]; cycle 1.
  { exists "birthdate". split; [by repeat constructor|]. split; [done|].
    by rewrite (bind_raise _ _ _ _ _ (getitem_missing _ row _ w H2)). }
  destruct (getitem_present _ row _ w H2) as [c2 E2].
  rewrite (bind_ok _ _ _ _ _ E2). cbv beta.
  destruct (decide ("last_access" ∈ fieldnames)) as [H3|H3]; cycle 1.
  { exists "last_access". split; [by repeat constructor|]. split; [done|].
    by rewrite (bind_raise _ _ _ _ _ (getitem_missing _ row _ w H3)). }
  destruct (getitem_present _ row _ w H3) as [c3 E3].
  rewrite (bind_ok _ _ _ _ _ E3). cbv beta.
  destruct (decide ("importance_level" ∈ fieldnames)) as [H4|H4]; cycle 1.
  { exists "importance_level". split; [by repeat constructor|]. split; [done|].
    by rewrite (bind_raise _ _ _ _ _ (getitem_missing _ row _ w H4)). }
  exfalso. unfold HEADER in Hk.
  repeat (apply elem_of_cons in Hk as [->|Hk]; [done|]).
  by apply elem_of_nil in Hk.
Qed.

(** When the first line of the snapshot lacks one of the four column names
    and the file has at least one line of data, loading raises [KeyError] for
    a missing name, before any object is created: the world is as before. *)
Theorem load_missing_column_raises (w : world) (p : string)
    (fieldnames row : list string) (rest : list (list string)) (k : string) :
  files w !! p = Some (fieldnames :: rest) ->
  row ∈ rest -> row <> [] ->
  k ∈ HEADER -> k ∉ fieldnames ->
  exists k', (k' ∈ HEADER) /\ (k' ∉ fieldnames) /\
    load_last_metadata p w = (Raise (KeyError k'), w).
Proof.
  intros Hfile Hin Hne Hk Hmiss.
  assert (Hd : exists r0 rs,
             List.filter (fun r => negb (is_blank r)) rest = r0 :: rs).
  { destruct (List.filter (fun r => negb (is_blank r)) rest) as [|r0 rs] eqn:Hf;
      [|by eauto].
    assert (Hrow : In row (List.filter (fun r => negb (is_blank r)) rest)).
    { apply filter_In. split; [by apply list_elem_of_In|by destruct row]. }
    rewrite Hf in Hrow. destruct Hrow. }
  destruct Hd as (r0 & rs & Hf).
  destruct (load_row_missing_column fieldnames r0 k ∅ w Hk Hmiss)
    as (k' & Hk' & Hmiss' & Hrow).
  exists k'. do 2 (split; [done|]).
  unfold load_last_metadata.
  rewrite (bind_ok _ _ w w (fieldnames :: rest));
    [|unfold open_read; by rewrite Hfile].
  apply bind_raise. simpl. rewrite Hf. simpl. by apply bind_raise.
Qed.

(** ** Loading: rows that are too short *)

Lemma short_row_importance (row : list string) :
  (0 < length row < 4)%nat ->
  DictReader_row HEADER row !! "importance_level" = Some None.
Proof.
  intros Hlen. unfold DictReader_row, HEADER.
  destruct row as [|c1 [|c2 [|c3 [|c4 row]]]]; simpl in *; try lia;
    apply lookup_insert_eq.
Qed.

Lemma HEADER_elem (k : string) :
  k = "path" \/ k = "birthdate" \/ k = "last_access" \/ k = "importance_level" ->
  k ∈ HEADER.
Proof. intros [->|[->|[->| ->]]]; by repeat constructor. Qed.

(** Under the standard header a row raises nothing but what the coercions
    raise. *)
Lemma load_row_header_error (row : list string)
    (md : gmap (option string) loc) (w w' : world) (e : exn) :
  load_row md (DictReader_row HEADER row) w = (Raise e, w') ->
  (e = ValueError \/ e = TypeError) /\
  exists cb ca ci,
    DictReader_row HEADER row !! "birthdate" = Some cb /\
    DictReader_row HEADER row !! "last_access" = Some ca /\
    DictReader_row HEADER row !! "importance_level" = Some ci /\
    (py_float (cell cb) = Raise e \/ py_float (cell ca) = Raise e \/
     py_int (cell ci) = Raise e).
Proof.
  unfold load_row. intros Hrun.
  destruct (getitem_present HEADER row "path" w) as [c1 E1];
    [apply HEADER_elem; tauto|].
  rewrite (bind_ok _ _ _ _ _ E1) in Hrun. cbv beta in Hrun.
  destruct (getitem_present HEADER row "birthdate" w) as [c2 E2];
    [apply HEADER_elem; tauto|].
  rewrite (bind_ok _ _ _ _ _ E2) in Hrun. cbv beta in Hrun.
  destruct (getitem_present HEADER row "last_access" w) as [c3 E3];
    [apply HEADER_elem; tauto|].
  rewrite (bind_ok _ _ _ _ _ E3) in Hrun. cbv beta in Hrun.
  destruct (getitem_present HEADER row "importance_level" w) as [c4 E4];
    [apply HEADER_elem; tauto|].
  rewrite (bind_ok _ _ _ _ _ E4) in Hrun. cbv beta in Hrun.
  apply bind_inv in Hrun as [(l & w1 & _ & [=])|(e' & Hi & [= <-])].
  destruct (EntityData_init_world _ _ _ _ _ _ _ Hi) as (_ & Herr & _).
  destruct (Herr e eq_refl) as [Hclass Hwhich]. split; [done|].
  exists c2, c3, c4.
  destruct (getitem_world _ _ _ _ _ E2) as (_ & _ & H2).
  destruct (getitem_world _ _ _ _ _ E3) as (_ & _ & H3).
  destruct (getitem_world _ _ _ _ _ E4) as (_ & _ & H4).
  auto.
Qed.

Lemma load_row_short (row : list string) (md : gmap (option string) loc)
    (w : world) :
  (0 < length row < 4)%nat ->
  exists e w', load_row md (DictReader_row HEADER row) w = (Raise e, w').
Proof.
  intros Hlen.
  destruct (load_row md (DictReader_row HEADER row) w) as [[md'|e] w'] eqn:Hrun;
    [|by eauto].
  exfalso. unfold load_row in Hrun.
  repeat match type of Hrun with
    | (getitem ?d ?k ≫= ?f) ?w0 = _ =>
        let Hg := fresh "Hg" in
        destruct (getitem d k w0) as [[?|?] ?] eqn:Hg;
        destruct (getitem_world _ _ _ _ _ Hg) as (-> & ? & ?);
        [rewrite (bind_ok _ _ _ _ _ Hg) in Hrun; cbv beta in Hrun
        |rewrite (bind_raise _ _ _ _ _ Hg) in Hrun; discriminate Hrun]
    end.
  apply bind_inv in Hrun as [(l & w1 & Hi & _)|(e' & _ & [=])].
  destruct (EntityData_init_world _ _ _ _ _ _ _ Hi) as (_ & _ & Hok).
  destruct (Hok l eq_refl) as (tb & ta & n & _ & _ & Hn).
  repeat match goal with
    | H : forall c, Ok ?x = Ok c -> _ |- _ => specialize (H x eq_refl)
    end.
  rewrite (short_row_importance row Hlen) in *. by simplify_eq.
Qed.

Lemma foldM_load_row_raises_class (E : exn -> Prop)
    (datas : list (gmap string (option string)))
    (data : gmap string (option string)) :
  data ∈ datas ->
  (forall md w, exists e w', load_row md data w = (Raise e, w')) ->
  (forall d md w e w', d ∈ datas -> load_row md d w = (Raise e, w') -> E e) ->
  forall (md : gmap (option string) loc) (w : world),
    exists e w', foldM load_row md datas w = (Raise e, w') /\ E e.
Proof.
  intros Hin Hbad.
  induction Hin as [data datas|data d0 datas _ IH]; intros HE md w.
  - destruct (Hbad md w) as (e & w' & Hrun).
    exists e, w'. simpl. rewrite (bind_raise _ _ _ _ _ Hrun).
    split; [done|]. eapply HE; [apply list_elem_of_here|done].
  - simpl. destruct (load_row md d0 w) as [[md'|e] w1] eqn:Hrun.
    + rewrite (bind_ok _ _ _ _ _ Hrun). apply IH; [done|].
      intros d md0 w0 e w' Hd. apply HE. by apply list_elem_of_further.
    + rewrite (bind_raise _ _ _ _ _ Hrun). exists e, w1.
      split; [done|]. eapply HE; [apply list_elem_of_here|done].
Qed.

(** Under the standard header, a line of data with one, two or three cells
    makes the load raise [ValueError] or [TypeError], wherever the line is:
    a missing cell is [None], which [float] and [int] reject; the row is not
    skipped and gets no default.  Only objects were created. *)
Theorem load_short_row_raises (w : world) (p : string) (row : list string)
    (rest : list (list string)) :
  files w !! p = Some (HEADER :: rest) ->
  row ∈ rest ->
  (0 < length row < 4)%nat ->
  exists e w',
    load_last_metadata p w = (Raise e, w') /\
    (e = ValueError \/ e = TypeError) /\
    only_allocates w w'.
Proof.
  intros Hfile Hin Hlen.
  assert (Hd : DictReader_row HEADER row ∈ DictReader (HEADER :: rest)).
  { simpl. apply list_elem_of_In, in_map, filter_In.
    split; [by apply list_elem_of_In|]. destruct row; simpl in *; [lia|done]. }
  destruct (foldM_load_row_raises_class
              (fun e => e = ValueError \/ e = TypeError) _ _ Hd
              (fun md w => load_row_short row md w Hlen)) with (md := (∅ : gmap (option string) loc)) (w := w)
    as (e & w' & Hrun & He).
  { intros d md w0 e w' Hdin Hr. simpl in Hdin.
    apply list_elem_of_fmap in Hdin as (r & -> & _).
    by apply load_row_header_error in Hr as [? _]. }
  assert (Hload : load_last_metadata p w = (Raise e, w')).
  { unfold load_last_metadata.
    rewrite (bind_ok _ _ w w (HEADER :: rest));
      [|unfold open_read; by rewrite Hfile].
    by apply bind_raise. }
  exists e, w'. split; [done|]. split; [done|].
  by eapply load_last_metadata_only_allocates.
Qed.

(** ** Loading: any file of well-formed rows *)

Lemma holds_snapshot_keys (h : gmap loc pyobj) (md : gmap (option string) loc)
    (es : list EntityData) (k : option string) :
  holds_snapshot h md es ->
  is_Some (md !! k) <-> exists e, e ∈ es /\ k = Some (path e).
Proof.
  intros [HN HS]. destruct k as [p|].
  - specialize (HS p). split.
    + intros [l Hl]. rewrite Hl in HS. destruct HS as (e & _ & Hlast).
      destruct (proj1 (last_with_path_is_Some p es)) as (e' & ? & <-);
        [by rewrite Hlast|]. eauto.
    + intros (e & He & [= ->]).
      destruct (md !! Some (path e)) as [l|]; [done|].
      destruct (proj2 (last_with_path_is_Some (path e) es)) as [e' He'];
        [eauto|]. congruence.
  - rewrite HN. split; [by intros [? ?]|by intros (e & _ & ?)].
Qed.

Lemma holds_snapshot_record (h : gmap loc pyobj) (d : loc)
    (md : gmap (option string) loc) (es : list EntityData) (self_path p : string) :
  h !! d = Some (ODict md) ->
  holds_snapshot h md es ->
  snapshot_record h (mkMemory self_path d) (Some p) = last_with_path p es.
Proof.
  intros Hd [_ HS]. unfold snapshot_record. simpl. rewrite Hd.
  specialize (HS p). destruct (md !! Some p) as [l|]; simpl; [|done].
  destruct HS as (e & Hl & Hlast). unfold entity_at. by rewrite Hl.
Qed.

Lemma load_row_parsed (row : list string) (e : EntityData)
    (md : gmap (option string) loc) (w : world) :
  parse_row row = Some e ->
  load_row md (DictReader_row HEADER row) w =
    (Ok (<[Some (path e) := fresh (dom (heap w))]> md),
     with_heap (<[fresh (dom (heap w)) := OEntity e]> (heap w)) w).
Proof.
  destruct row as [|p [|b [|a [|i extra]]]]; try discriminate. simpl.
  destruct (float_of_str b) as [tb|] eqn:Hb; [|discriminate].
  destruct (float_of_str a) as [ta|] eqn:Ha; [|discriminate].
  destruct (int_of_str i) as [n|] eqn:Hi; [|discriminate].
  intros [= <-].
  assert (Hcells :
    DictReader_row HEADER (p :: b :: a :: i :: extra) !! "path" = Some (Some p) /\
    DictReader_row HEADER (p :: b :: a :: i :: extra) !! "birthdate"
      = Some (Some b) /\
    DictReader_row HEADER (p :: b :: a :: i :: extra) !! "last_access"
      = Some (Some a) /\
    DictReader_row HEADER (p :: b :: a :: i :: extra) !! "importance_level"
      = Some (Some i)).
  { unfold DictReader_row, HEADER. simpl. rewrite drop_nil. simpl.
    repeat split;
      repeat (rewrite lookup_insert_ne by discriminate);
      apply lookup_insert_eq. }
  destruct Hcells as (Hp & Hbc & Hac & Hic).
  unfold load_row, getitem. rewrite Hp, Hbc, Hac, Hic.
  unfold mbind, M_bind, mret, M_ret, EntityData_init, lift_result, alloc.
  simpl. rewrite Hb, Ha, Hi. reflexivity.
Qed.

Lemma load_loop_parsed (rows : list (list string)) (es : list EntityData) :
  Forall2 (fun r e => parse_row r = Some e) rows es ->
  forall (pre : list EntityData) (md : gmap (option string) loc) (w : world),
    holds_snapshot (heap w) md pre ->
    exists md' w',
      foldM load_row md (map (DictReader_row HEADER) rows) w = (Ok md', w') /\
      holds_snapshot (heap w') md' (pre ++ es).
Proof.
  induction 1 as [|r e rows es Hr _ IH]; intros pre md w Hold.
  - exists md, w. simpl. by rewrite app_nil_r.
  - simpl. rewrite (bind_ok _ _ _ _ _ (load_row_parsed r e md w Hr)).
    destruct (IH (pre ++ [e]) _
                (with_heap (<[fresh (dom (heap w)) := OEntity e]> (heap w)) w)
                (holds_snapshot_store _ _ _ e Hold))
      as (md' & w' & Hrun & Hold').
    exists md', w'. by rewrite <- app_assoc in Hold'.
Qed.

Lemma filter_parsed_rows (rows : list (list string)) (es : list EntityData) :
  Forall2 (fun r e => parse_row r = Some e) rows es ->
  List.filter (fun r => negb (is_blank r)) rows = rows.
Proof.
  induction 1 as [|r e rows es Hr _ IH]; simpl; [done|].
  destruct r; [discriminate|]. simpl. by rewrite IH.
Qed.

(** Loading a file whose first line is the standard header and whose other
    lines each start with a path, two cells [float] accepts and a cell [int]
    accepts: the load succeeds; the dictionary has a key exactly for the paths
    of the file and holds, under each path, the record of the last line with
    that path; cells after the fourth are ignored; only objects were
    created. *)
Theorem load_well_formed_rows (w : world) (p : string)
    (rows : list (list string)) (es : list EntityData) :
  files w !! p = Some (HEADER :: rows) ->
  Forall2 (fun r e => parse_row r = Some e) rows es ->
  exists (d : loc) (md : gmap (option string) loc) (w' : world),
    load_last_metadata p w = (Ok d, w') /\
    heap w' !! d = Some (ODict md) /\
    (forall k, is_Some (md !! k) <-> exists e, e ∈ es /\ k = Some (path e)) /\
    (forall q, snapshot_record (heap w') (mkMemory p d) (Some q)
               = last_with_path q es) /\
    only_allocates w w'.
Proof.
  intros Hfile Hrows.
  assert (Hempty : holds_snapshot (heap w) ∅ []) by (split; [done|by intros q]).
  destruct (load_loop_parsed rows es Hrows [] ∅ w Hempty)
    as (md & w1 & Hrun & Hold).
  simpl in Hold.
  set (d := fresh (dom (heap w1))).
  set (w' := with_heap (<[d := ODict md]> (heap w1)) w1).
  assert (Hload : load_last_metadata p w = (Ok d, w')).
  { unfold load_last_metadata.
    rewrite (bind_ok _ _ w w (HEADER :: rows));
      [|unfold open_read; by rewrite Hfile].
    unfold DictReader. rewrite (filter_parsed_rows rows es Hrows).
    by rewrite (bind_ok _ _ _ _ _ Hrun). }
  assert (Hd : heap w' !! d = Some (ODict md)) by apply lookup_insert_eq.
  assert (Hold' : holds_snapshot (heap w') md es)
    by (by apply holds_snapshot_alloc).
  exists d, md, w'. split; [done|]. split; [done|].
  split; [intros k; exact (holds_snapshot_keys _ _ _ k Hold')|].
  split; [intros q; exact (holds_snapshot_record _ _ _ _ p q Hd Hold')|].
  by eapply load_last_metadata_only_allocates.
Qed.

End Loading.

Section Scanning.
Context {L : PyLib}.

(** ** The scan: what each step leaves alone *)












(** ** The run: the snapshot is rewritten at the end or not at all *)







(** ** One entity: the record it gets and what is done with it *)

(** [extract_data] then [update_data], when the entity can be stat'ed and the
    snapshot is a dictionary of records: the fresh object holds
    [accrued prev p s], and nothing else has changed. *)
Lemma accrue_run (w : world) (db : Memory) (entity : string) (s : stat_result)
    (md : gmap (option string) loc) :
  stat w entity = Some s ->
  heap w !! last_metadata db = Some (ODict md) ->
  (forall l, md !! Some entity = Some l ->
             exists prev, heap w !! l = Some (OEntity prev)) ->
  let l := fresh (dom (heap w)) in
  let e := accrued (snapshot_record (heap w) db (Some entity)) entity s in
  exists w0,
    extract_data entity w = (Ok l, w0) /\
    update_data l db w0 = (Ok tt, with_heap (<[l := OEntity e]> (heap w)) w).
Proof.
  intros Hs Hmd Hrefs l e.
  set (d := mkEntityData entity (st_birthtime s) (st_atime s) 0).
  set (w0 := with_heap (<[l := OEntity d]> (heap w)) w).
  exists w0. split; [by apply extract_data_ok|].
  assert (Hd : heap w0 !! l = Some (OEntity d)) by apply lookup_insert_eq.
  assert (Hmd0 : heap w0 !! last_metadata db = Some (ODict md))
    by (by apply lookup_alloc_old).
  pose proof (update_data_run w0 l db d md Hd Hmd0) as Hrun.
  simpl in Hrun. rewrite Hrun. clear Hrun.
  subst e. unfold snapshot_record. rewrite Hmd.
  destruct (md !! Some entity) as [l0|] eqn:Hk; simpl; [|reflexivity].
  destruct (Hrefs l0 eq_refl) as [prev Hprev].
  assert (Hprev0 : heap w0 !! l0 = Some (OEntity prev))
    by (by apply lookup_alloc_old).
  simpl in Hprev0. rewrite Hprev0.
  unfold entity_at. rewrite Hprev. unfold accrued.
  destruct (st_atime s >? last_access prev); [|reflexivity].
  unfold with_heap, w0. simpl. by rewrite insert_insert_eq.
Qed.

Lemma dispatch_op_op_for (w : world) (e : EntityData) :
  dispatch_op w e = op_for (clock w (S (ticks w))) e.
Proof. reflexivity. Qed.


(** What one turn of the loop can do to the file system: nothing, one move
    to the trash, or one move to the archive; and the archive only for an
    entity that is in the snapshot with an older last access and an importance
    of [IMPORTANCE_THRESHOLD - 1] at least, and whose new last access is
    itself older than the time limit.  An entity the snapshot does not know is
    never archived. *)
Theorem archive_requires_newer_access (w : world) (db : Memory)
    (acc : list loc) (entity : string) (s : stat_result)
    (md : gmap (option string) loc) :
  stat w entity = Some s ->
  heap w !! last_metadata db = Some (ODict md) ->
  (forall l, md !! Some entity = Some l ->
             exists prev, heap w !! l = Some (OEntity prev)) ->
  exists r w',
    browse_entity db acc entity w = (r, w') /\
    (moved w' = moved w \/
     moved w' = moved w ++ [Send2Trash (path_str entity)] \/
     exists dst prev,
       moved w' = moved w ++ [Rename (path_str entity) dst] /\
       snapshot_record (heap w) db (Some entity) = Some prev /\
       last_access prev < st_atime s /\
       IMPORTANCE_THRESHOLD <= importance_level prev + 1 /\
       fromtimestamp (st_atime s) + timedelta_days TIME_LIMIT_IN_DAYS
         < clock w (ticks w)).
Proof.
  intros Hs Hmd Hrefs.
  destruct (accrue_run w db entity s md Hs Hmd Hrefs) as (w0 & Hex & Hup).
  set (l := fresh (dom (heap w))) in *.
  set (e := accrued (snapshot_record (heap w) db (Some entity)) entity s) in *.
  set (w1 := with_heap (<[l := OEntity e]> (heap w)) w) in *.
  assert (He : heap w1 !! l = Some (OEntity e)) by apply lookup_insert_eq.
  destruct (dispatch_run w1 l e He) as (w2 & Hdis & _ & _ & _ & _ & _ & _ & Hm2).
  simpl in Hm2.
  assert (Hrun : exists r, browse_entity db acc entity w = (r, w2)).
  { unfold browse_entity.
    rewrite (bind_ok _ _ _ _ _ Hex). cbv beta.
    rewrite (bind_ok _ _ _ _ _ Hup). cbv beta.
    destruct (dispatch l w1) as [[[]|e0] w3] eqn:Hd; injection Hdis as _ <-.
    - rewrite (bind_ok _ _ _ _ _ Hd). by eexists.
    - rewrite (bind_raise _ _ _ _ _ Hd). by eexists. }
  destruct Hrun as [r Hrun]. exists r, w2. split; [done|].
  destruct (deprecated_at (clock w (ticks w)) e) eqn:Hstale; [|by left].
  destruct (refuses w (dispatch_op w1 e)); [by left|].
  right. rewrite Hm2. unfold dispatch_op. simpl.
  destruct (important e) eqn:Himp; [|by left].
  right. eexists _.
  unfold important, e, accrued in Himp. simpl in Himp.
  apply deprecated_at_iff in Hstale. simpl in Hstale.
  destruct (snapshot_record (heap w) db (Some entity)) as [prev|];
    [|discriminate].
  exists prev. split; [reflexivity|]. split; [reflexivity|].
  destruct (st_atime s >? last_access prev) eqn:Hnew; [|discriminate].
  apply Z.gtb_gt in Hnew. apply Z.geb_ge in Himp. repeat split; lia.
Qed.

(** ** The whole scan when nothing fails *)









End Scanning.

Section Writing.
Context {L : PyLib}.

(** ** [Memory.update] writes as it goes *)



End Writing.

(** ** The further properties at concrete inputs *)

(** The run without a snapshot file. *)
Lemma missing_snapshot_raises_witness :
  browse_files DOWNLOADS_PATH "./test.csv" world_no_snapshot
    = (Raise FileNotFoundError, world_no_snapshot).
Proof.
  exact (proj2 (proj2 (missing_snapshot_raises world_no_snapshot DOWNLOADS_PATH
                         "./test.csv" eq_refl))).
Defined.

(** The run on a directory that is not there. *)
Lemma unlistable_directory_raises_witness :
  browse_files "D:\Nowhere" "./test.csv" world_B
    = (Raise StopIteration, (Memory_init "./test.csv" world_B).2) /\
  files (Memory_init "./test.csv" world_B).2 = files world_B.
Proof.
  destruct (unlistable_directory_raises world_B
              (Memory_init "./test.csv" world_B).2 "D:\Nowhere"
              "./test.csv" db_B) as (Hrun & Hf & _).
  - apply injective_projections; [vm_compute|]; reflexivity.
  - reflexivity.
  - split; [exact Hrun|exact Hf].
Defined.

(** Loading a snapshot with the header alone. *)
Lemma load_without_rows_is_empty_witness :
  load_last_metadata "./test.csv" world_header_only =
    (Ok 1%positive, with_heap {[ 1%positive := ODict ∅ ]} world_header_only).
Proof.
  apply (load_without_rows_is_empty world_header_only "./test.csv"
           [ ["path"; "birthdate"; "last_access"; "importance_level"] ]).
  - reflexivity.
  - constructor.
Defined.

(** Loading a snapshot without the [path] column. *)
Lemma load_missing_column_raises_witness :
  exists k', (k' ∈ HEADER) /\
    (k' ∉ ["birthdate"; "last_access"; "importance_level"]) /\
    load_last_metadata "./test.csv" world_no_path_column
      = (Raise (KeyError k'), world_no_path_column).
Proof.
  apply (load_missing_column_raises world_no_path_column "./test.csv"
           ["birthdate"; "last_access"; "importance_level"]
           [Ref.str_of_Z (days_ago 100); Ref.str_of_Z (days_ago 40); "2"]
           [ [Ref.str_of_Z (days_ago 100); Ref.str_of_Z (days_ago 40); "2"] ]
           "path").
  - reflexivity.
  - apply list_elem_of_here.
  - discriminate.
  - apply list_elem_of_here.
  - intros H. repeat (apply elem_of_cons in H as [H|H]; [discriminate H|]).
    by apply elem_of_nil in H.
Defined.

(** Loading a snapshot with a line of two cells. *)
Lemma load_short_row_raises_witness :
  exists e w',
    load_last_metadata "./test.csv" world_short_row = (Raise e, w') /\
    (e = ValueError \/ e = TypeError) /\
    only_allocates world_short_row w'.
Proof.
  apply (load_short_row_raises world_short_row "./test.csv"
           [a_txt; Ref.str_of_Z (days_ago 100)]
           [ [a_txt; Ref.str_of_Z (days_ago 100)] ]).
  - reflexivity.
  - apply list_elem_of_here.
  - simpl. lia.
Defined.

(** Loading two lines for [a.txt], the first with a fifth cell: the second
    line wins. *)
Lemma load_well_formed_rows_witness :
  exists (d : loc) (md : gmap (option string) loc) (w' : world),
    load_last_metadata "./test.csv" world_extra_cell = (Ok d, w') /\
    heap w' !! d = Some (ODict md) /\
    (forall k, is_Some (md !! k) <->
               exists e, e ∈ [first_A; prev_A] /\ k = Some (path e)) /\
    (forall q, snapshot_record (heap w') (mkMemory "./test.csv" d) (Some q)
               = last_with_path q [first_A; prev_A]) /\
    only_allocates world_extra_cell w'.
Proof.
  apply (load_well_formed_rows world_extra_cell "./test.csv"
           [ [a_txt; Ref.str_of_Z (days_ago 200); Ref.str_of_Z (days_ago 90);
              "7"; "old"];
             [a_txt; Ref.str_of_Z (days_ago 100); Ref.str_of_Z (days_ago 40);
              "2"] ]
           [first_A; prev_A]).
  - reflexivity.
  - repeat constructor; vm_compute; reflexivity.
Defined.

(** A load that raises, on the snapshot with the birthdate [yesterday]. *)
Lemma loading_only_allocates_witness :
  only_allocates world_bad_row
    (load_last_metadata "./test.csv" world_bad_row).2.
Proof.
  exact (proj1 (loading_only_allocates "./test.csv" world_bad_row) _ _
           (surjective_pairing _)).
Defined.

(** Entity B on the loaded snapshot: its last access is not newer. *)
Lemma archive_requires_newer_access_witness :
  exists r w',
    browse_entity db_B [] b_txt world_B_loaded = (r, w') /\
    (moved w' = moved world_B_loaded \/
     moved w' = moved world_B_loaded ++ [Send2Trash (path_str b_txt)] \/
     exists dst prev,
       moved w' = moved world_B_loaded ++ [Rename (path_str b_txt) dst] /\
       snapshot_record (heap world_B_loaded) db_B (Some b_txt) = Some prev /\
       last_access prev < days_ago 40 /\
       IMPORTANCE_THRESHOLD <= importance_level prev + 1 /\
       fromtimestamp (days_ago 40) + timedelta_days TIME_LIMIT_IN_DAYS
         < clock world_B_loaded (ticks world_B_loaded)).
Proof.
  apply (archive_requires_newer_access world_B_loaded db_B [] b_txt
           (mkStat (days_ago 100) (days_ago 40)) md_B).
  - vm_compute. reflexivity.
  - reflexivity.
  - intros l Hl. vm_compute in Hl. injection Hl as <-.
    exists prev_B. reflexivity.
Defined.






